(** * what2wear: the browser verification scripts and the image fixture

    A shallow embedding of the scripts under [jules-scratch/]:
    - [verification/verify.py]                  (module [Verify])
    - [verification/verify_invalid_image.py]    (module [VerifyInvalidImage])
    - [verification/verify_feedback_feature.py] (module [VerifyFeedbackFeature])
    - [verification/verify_virtual_try_on.py]   (module [VerifyVirtualTryOn])
    - [verification/verify_update.py]           (module [VerifyUpdate])
    - [create_image.py]                         (module [CreateImage])

    The scripts drive a browser through Playwright.  The browser, the
    application under test, the file system and the PNG encoder are outside
    the repository: they are a parameter of the model (class [World]), a
    state machine that answers every call either normally or by raising, and
    says how long the call took.  A script is a computation in a state and
    exception monad; the state carries the world, the chronological trace of
    the calls made so far and the position in the stream of random draws. *)

From Stdlib Require Import String Ascii List Arith NArith ZArith Lia Bool.
Import ListNotations.
Local Open Scope list_scope.
Local Open Scope string_scope.

(** ** Calls, replies and traces *)

(** The double quote character, for selectors such as
    [input[type="file"]]. *)
Definition dq : string := String (ascii_of_nat 34) EmptyString.

(** Playwright locators, as the scripts build them. *)
Inductive Locator : Type :=
| Css (selector : string)                  (* page.locator(sel), or a selector string *)
| ByLabel (text : string)                  (* page.get_by_label(text) *)
| ByText (text : string)                   (* page.get_by_text(text) *)
| ByRole (role name : string)              (* page.get_by_role(role, name=name) *)
| Within (parent child : Locator).         (* parent.get_by_role(..), parent.locator(..) *)

(** One statement of a script that has an effect.  Timeouts are the keyword
    argument [timeout=] in milliseconds, [None] when the call passes none. *)
Inductive Action : Type :=
| Playwright_start                          (* with sync_playwright() / async_playwright(): enter *)
| Playwright_stop                           (* ... and exit *)
| Chromium_launch (headless : option bool)  (* p.chromium.launch(headless=..) *)
| Browser_new_context                       (* browser.new_context() *)
| New_page                                  (* browser.new_page(), context.new_page() *)
| Page_goto (url : string)
| Page_screenshot (path : string)
| Locator_screenshot (target : Locator) (path : string)
| Fill (target : Locator) (value : string)
| Click (target : Locator)
| Set_input_files (target : Locator) (path : string)
| Wait_for_url (url : string)
| Wait_for_selector (selector : string)
| Expect_visible (target : Locator) (timeout : option N)
| Context_close
| Browser_close
| Time_sleep (seconds : N)                  (* time.sleep(n) *)
| Print (text : string)                     (* print(text) *)
| File_open (filename mode : string)        (* with open(filename, mode): enter *)
| File_close                                (* ... and exit *)
| Png_Writer (width height : Z) (greyscale : bool)
| Png_write (rows : list (list Z)).         (* writer.write(f, rows) *)

(** How a call ends: it returns, or it raises an exception whose text is
    [message] (every exception of the model is an [Exception]). *)
Inductive Outcome : Type :=
| Done
| Raised (message : string).

(** A reply says how the call ended and how many milliseconds it took. *)
Record Reply : Type := mkReply { outcome : Outcome; took : N }.

(** The world outside the scripts: it answers a call and moves on. *)
Class World (W : Type) : Type :=
  respond : W -> Action -> Reply * W.

Record Event : Type := mkEvent
  { ev_action : Action; ev_outcome : Outcome; ev_took : N }.

Definition raised (e : Event) : bool :=
  match ev_outcome e with Done => false | Raised _ => true end.

(** ** The state and exception monad of the scripts *)

Inductive Res (A : Type) : Type :=
| Val (a : A)
| Exc (message : string).
Arguments Val {A} a.
Arguments Exc {A} message.

Record State (W : Type) : Type := mkState
  { world : W;
    entropy : nat -> nat;   (* the draws of the random generator, in order *)
    drawn : nat;            (* how many were consumed *)
    trace : list Event }.
Arguments mkState {W}.
Arguments world {W}.
Arguments entropy {W}.
Arguments drawn {W}.
Arguments trace {W}.

Definition M (W A : Type) : Type := State W -> Res A * State W.

Section Monad.
Context {W : Type} {B : World W}.

Definition ret {A} (a : A) : M W A := fun s => (Val a, s).

Definition bind {A C} (m : M W A) (k : A -> M W C) : M W C := fun s =>
  match m s with
  | (Val a, s1) => k a s1
  | (Exc e, s1) => (Exc e, s1)
  end.

Definition log (a : Action) (r : Reply) (w : W) (s : State W) : State W :=
  {| world := w; entropy := entropy s; drawn := drawn s;
     trace := (trace s ++ [mkEvent a (outcome r) (took r)])%list |}.

(** What a statement gets for an answer.  [time.sleep] and [print] are
    local: they never raise, a sleep of [n] seconds takes [1000 * n] ms and
    the world is not consulted. *)
Definition answer (w : W) (a : Action) : Reply * W :=
  match a with
  | Time_sleep n => (mkReply Done (1000 * n)%N, w)
  | Print _ => (mkReply Done 0%N, w)
  | _ => respond w a
  end.

Definition completion (o : Outcome) : Res unit :=
  match o with Done => Val tt | Raised e => Exc e end.

(** One effectful statement: it is answered, logged, and raises when the
    answer is an exception. *)
Definition perform (a : Action) : M W unit := fun s =>
  let (r, w) := answer (world s) a in
  (completion (outcome r), log a r w s).

(** [try: body finally: fin].  The [finally] block always runs; when it
    raises, its exception replaces the outcome of the body. *)
Definition try_finally {A} (body : M W A) (fin : M W unit) : M W A := fun s =>
  let (r, s1) := body s in
  match fin s1 with
  | (Val _, s2) => (r, s2)
  | (Exc e, s2) => (Exc e, s2)
  end.

(** [try: body except Exception as e: handler e]. *)
Definition try_except {A} (body : M W A) (handler : string -> M W A) : M W A :=
  fun s =>
  match body s with
  | (Val a, s1) => (Val a, s1)
  | (Exc e, s1) => handler e s1
  end.

(** [with cm: body], for a context manager whose exit does not swallow
    exceptions: no exit when the entry raises, exit on every way out of
    the body. *)
Definition with_ {A} (enter exit : Action) (body : M W A) : M W A :=
  bind (perform enter) (fun _ => try_finally body (perform exit)).

(** [random.choice(seq)]: one draw, reduced to an index of [seq]. *)
Definition random_choice (seq : list ascii) : M W ascii := fun s =>
  (Val (nth (entropy s (drawn s) mod length seq) seq zero),
   {| world := world s; entropy := entropy s; drawn := S (drawn s);
      trace := trace s |}).
End Monad.

Declare Scope script_scope.
Delimit Scope script_scope with script.
Notation "x <- m ;; k" := (bind m (fun x => k))
  (at level 61, m at next level, right associativity) : script_scope.
Notation "m ;; k" := (bind m (fun _ => k))
  (at level 61, right associativity) : script_scope.
Local Open Scope script_scope.

(** Running a whole script from an initial world and a stream of draws. *)
Definition start {W} (w : W) (rnd : nat -> nat) : State W :=
  {| world := w; entropy := rnd; drawn := 0; trace := [] |}.

(** The exit status of the Python process: an uncaught exception prints a
    traceback and exits with status 1. *)
Definition exit_status {A} (r : Res A) : nat :=
  match r with Val _ => 0 | Exc _ => 1 end.

Definition file_input : string := "input[type=" ++ dq ++ "file" ++ dq ++ "]".
Definition add_item_button : string :=
  "button:has-text(" ++ dq ++ "Add Item" ++ dq ++ ")".

(** ** verify.py *)
Module Verify.
Section Script.
Context {W : Type} {B : World W}.

Definition ascii_lowercase : list ascii :=
  list_ascii_of_string "abcdefghijklmnopqrstuvwxyz".

(** [''.join(random.choice(letters) for i in range(length))] *)
Fixpoint random_string (length : nat) : M W string :=
  match length with
  | 0 => ret ""
  | S n =>
      c <- random_choice ascii_lowercase ;;
      rest <- random_string n ;;
      ret (String c rest)
  end.

Definition insufficiency_message : string :=
  "You need to add at least one of each: Bottom, Footwear.".

(** The [try] block of [main], lines 17 to 43. *)
Definition body : M W unit :=
  suffix <- random_string 10 ;;
  let email := "user_" ++ suffix ++ "@example.com" in
  let password := "password" in
  perform (Page_goto "http://localhost:3000/auth/sign-up") ;;
  perform (Page_screenshot "jules-scratch/verification/signup-page.png") ;;
  perform (Fill (ByLabel "Email") email) ;;
  perform (Fill (ByLabel "Password") password) ;;
  perform (Click (ByRole "button" "Sign Up")) ;;
  perform (Wait_for_url "http://localhost:3000/onboarding") ;;
  perform (Click (ByRole "button" "Get Started")) ;;
  perform (Wait_for_url "http://localhost:3000/wardrobe") ;;
  perform (Click (ByRole "button" "Add Item")) ;;
  perform (Set_input_files (Css file_input) "src/app/wardrobe/placeholder.png") ;;
  perform (Click (ByRole "button" "Add Item")) ;;
  perform (Expect_visible (ByText "Item added successfully") None) ;;
  perform (Page_goto "http://localhost:3000") ;;
  perform (Expect_visible (ByText insufficiency_message) None) ;;
  perform (Page_screenshot "jules-scratch/verification/insufficient-items.png").

Definition main : M W unit :=
  with_ Playwright_start Playwright_stop
    (perform (Chromium_launch (Some true)) ;;
     perform New_page ;;
     try_finally body (perform Browser_close)).
End Script.
End Verify.

(** ** verify_invalid_image.py *)
Module VerifyInvalidImage.
Section Script.
Context {W : Type} {B : World W}.

Definition rejection_message : string :=
  "AI could not detect a clothing item. Please try another image.".

Definition rejection_selector : string :=
  "text=" ++ dq ++ rejection_message ++ dq.

(** The [try] block of [run], lines 10 to 22. *)
Definition body : M W unit :=
  perform (Page_goto "http://localhost:3000/wardrobe") ;;
  perform (Click (Css add_item_button)) ;;
  perform (Set_input_files (Css file_input) "tests/fixtures/wooden-plank.jpeg") ;;
  perform (Wait_for_selector rejection_selector) ;;
  perform (Page_screenshot "jules-scratch/verification/verification.png").

Definition run : M W unit :=
  perform (Chromium_launch (Some true)) ;;
  perform Browser_new_context ;;
  perform New_page ;;
  try_finally body (perform Context_close ;; perform Browser_close).

(** The module level: [with sync_playwright() as playwright: run(playwright)]. *)
Definition script : M W unit :=
  with_ Playwright_start Playwright_stop run.
End Script.
End VerifyInvalidImage.

(** ** verify_feedback_feature.py *)
Module VerifyFeedbackFeature.
Section Script.
Context {W : Type} {B : World W}.

Definition outfit_recommender : Locator :=
  Css "div.bg-white.p-6.rounded-lg.shadow-md".

(** The [try] block, lines 10 to 28. *)
Definition body : M W unit :=
  perform (Page_goto "http://localhost:3000") ;;
  perform (Expect_visible outfit_recommender (Some 15000%N)) ;;
  perform (Expect_visible
             (Within outfit_recommender (ByRole "heading" "Your Daily Outfit Pick"))
             None) ;;
  let like_button := ByRole "button" "Like" in
  let dislike_button := ByRole "button" "Dislike" in
  perform (Expect_visible like_button None) ;;
  perform (Expect_visible dislike_button None) ;;
  perform (Page_screenshot "jules-scratch/verification/feedback_feature.png") ;;
  perform (Print "Screenshot taken successfully.").

(** The [except Exception as e] block, lines 31 and 32. *)
Definition handler (e : string) : M W unit :=
  perform (Print ("An error occurred: " ++ e)) ;;
  perform (Page_screenshot "jules-scratch/verification/error.png").

Definition run_verification : M W unit :=
  with_ Playwright_start Playwright_stop
    (perform (Chromium_launch (Some true)) ;;
     perform New_page ;;
     try_finally (try_except body handler) (perform Browser_close)).
End Script.
End VerifyFeedbackFeature.

(** ** verify_virtual_try_on.py *)
Module VerifyVirtualTryOn.
Section Script.
Context {W : Type} {B : World W}.

Definition try_on_heading : Locator := ByRole "heading" "Virtual Try-On".
Definition generate_button : Locator := ByRole "button" "Generate Virtual Try-On".

(** The [try] block, lines 10 to 26. *)
Definition body : M W unit :=
  perform (Page_goto "http://localhost:3000") ;;
  perform (Expect_visible try_on_heading (Some 10000%N)) ;;
  perform (Expect_visible generate_button None) ;;
  let component_container := Within try_on_heading (Css "xpath=./..") in
  perform (Locator_screenshot component_container
             "jules-scratch/verification/virtual_try_on_feature.png") ;;
  perform (Print "Screenshot captured successfully.").

(** The [except Exception as e] block, lines 29 to 31. *)
Definition handler (e : string) : M W unit :=
  perform (Print ("An error occurred during verification: " ++ e)) ;;
  perform (Page_screenshot "jules-scratch/verification/error_screenshot.png").

Definition run_verification : M W unit :=
  with_ Playwright_start Playwright_stop
    (perform (Chromium_launch (Some true)) ;;
     perform New_page ;;
     try_finally (try_except body handler) (perform Browser_close)).
End Script.
End VerifyVirtualTryOn.

(** ** verify_update.py *)
Module VerifyUpdate.
Section Script.
Context {W : Type} {B : World W}.

Definition run : M W unit :=
  perform (Chromium_launch None) ;;
  perform New_page ;;
  perform (Time_sleep 5%N) ;;
  perform (Page_goto "http://localhost:3000/wardrobe") ;;
  perform (Click (Css add_item_button)) ;;
  perform (Set_input_files (Css file_input) "README.md") ;;
  perform (Click (Css add_item_button)) ;;
  perform (Click (Css ("button:has-text(" ++ dq ++ "Edit" ++ dq ++ ")"))) ;;
  perform (Click (Css ("button:has-text(" ++ dq ++ "Save Changes" ++ dq ++ ")"))) ;;
  perform (Page_screenshot "jules-scratch/verification/verification.png") ;;
  perform Browser_close.

(** The module level: [with sync_playwright() as playwright: run(playwright)]. *)
Definition script : M W unit :=
  with_ Playwright_start Playwright_stop run.
End Script.
End VerifyUpdate.

(** ** create_image.py *)
Module CreateImage.

(** The inner loop: [for _ in range(width): row.extend(color)], from the
    row built so far. *)
Fixpoint extend_row (iterations : nat) (row color : list Z) : list Z :=
  match iterations with
  | 0 => row
  | S n => extend_row n (row ++ color)%list color
  end.

(** The outer loop: [for _ in range(height): row = [] ... img.append(row)],
    from the image built so far.  [range] of a negative number is empty. *)
Fixpoint append_rows (iterations : nat) (img : list (list Z))
    (width : Z) (color : list Z) : list (list Z) :=
  match iterations with
  | 0 => img
  | S n =>
      append_rows n (img ++ [extend_row (Z.to_nat width) [] color])%list
        width color
  end.

Definition image (width height : Z) (color : list Z) : list (list Z) :=
  append_rows (Z.to_nat height) [] width color.

Section Script.
Context {W : Type} {B : World W}.

Definition create_placeholder_image (width height : Z) (color : list Z)
    (filename : string) : M W unit :=
  let img := image width height color in
  with_ (File_open filename "wb") File_close
    (perform (Png_Writer width height false) ;;
     perform (Png_write img)).

(** The [__main__] block. *)
Definition script : M W unit :=
  create_placeholder_image 100 100 [255; 255; 255]%Z
    "src/app/wardrobe/placeholder.png".
End Script.
End CreateImage.

(** ** The scenarios of the repository *)

Inductive Scenario : Type :=
| VerifyPy
| VerifyInvalidImagePy
| VerifyFeedbackFeaturePy
| VerifyVirtualTryOnPy
| VerifyUpdatePy.

(** What running the file of a scenario executes. *)
Definition program {W : Type} {B : World W} (sc : Scenario) : M W unit :=
  match sc with
  | VerifyPy => Verify.main
  | VerifyInvalidImagePy => VerifyInvalidImage.script
  | VerifyFeedbackFeaturePy => VerifyFeedbackFeature.run_verification
  | VerifyVirtualTryOnPy => VerifyVirtualTryOn.run_verification
  | VerifyUpdatePy => VerifyUpdate.script
  end.

(** A run of a scenario: how the process ended and what it did. *)
Definition result {W A} (run : Res A * State W) : Res A := fst run.
Definition events {W A} (run : Res A * State W) : list Event := trace (snd run).
Definition actions {W A} (run : Res A * State W) : list Action :=
  map ev_action (events run).

Definition run {W : Type} {B : World W} (sc : Scenario) (w : W)
    (rnd : nat -> nat) : Res unit * State W :=
  program sc (start w rnd).

(** ** Observations on traces *)

Definition message (e : Event) : string :=
  match ev_outcome e with Done => "" | Raised m => m end.

Definition is_browser_close (a : Action) : bool :=
  match a with Browser_close => true | _ => false end.

Definition is_context_close (a : Action) : bool :=
  match a with Context_close => true | _ => false end.

Definition is_screenshot (a : Action) : bool :=
  match a with
  | Page_screenshot _ | Locator_screenshot _ _ => true
  | _ => false
  end.




(** A step of a scenario, as opposed to the management of its session
    (starting Playwright, launching, opening and closing). *)
Definition is_step (a : Action) : bool :=
  match a with
  | Page_goto _ | Page_screenshot _ | Locator_screenshot _ _ | Fill _ _
  | Click _ | Set_input_files _ _ | Wait_for_url _ | Wait_for_selector _
  | Expect_visible _ _ | Time_sleep _ | Print _ => true
  | _ => false
  end.

Definition count (p : Action -> bool) (tr : list Event) : nat :=
  length (filter (fun e => p (ev_action e)) tr).

(** The session exists once [new_page] has returned. *)
Definition page_opened (tr : list Event) : bool :=
  existsb (fun e => match ev_action e with
                    | New_page => negb (raised e)
                    | _ => false
                    end) tr.

Definition step_failed (tr : list Event) : bool :=
  existsb (fun e => raised e && is_step (ev_action e)) tr.

Definition context_close_failed (tr : list Event) : bool :=
  existsb (fun e => raised e && is_context_close (ev_action e)) tr.

(** Whether [print(text)] was executed. *)
Definition printed (text : string) (tr : list Event) : bool :=
  existsb (fun e => match ev_action e with
                    | Print s => String.eqb s text
                    | _ => false
                    end) tr.

Fixpoint first_failure (tr : list Event) : option Event :=
  match tr with
  | [] => None
  | e :: rest => if raised e then Some e else first_failure rest
  end.

(** What was executed after the first call that raised. *)
Fixpoint after_first_failure (tr : list Event) : list Event :=
  match tr with
  | [] => []
  | e :: rest => if raised e then rest else after_first_failure rest
  end.

(** ** Some worlds *)

(** Every call returns at once. *)
Definition all_ok : World unit :=
  fun w _ => (mkReply Done 0%N, w).

(** The application is not running: every navigation raises. *)
Definition connection_refused : string := "net::ERR_CONNECTION_REFUSED".

Definition unreachable : World unit :=
  fun w a =>
    match a with
    | Page_goto _ => (mkReply (Raised connection_refused) 0%N, w)
    | _ => (mkReply Done 0%N, w)
    end.

(** Screenshots cannot be written, everything else works. *)
Definition disk_full : World unit :=
  fun w a =>
    if is_screenshot a
    then (mkReply (Raised "ENOSPC: no space left on device") 0%N, w)
    else (mkReply Done 0%N, w).

Definition no_draws : nat -> nat := fun _ => 0.

(** * Properties *)

(** ** Weakest preconditions: symbolic execution against any world *)

Section Wp.
Context {W : Type} {B : World W}.

Definition wp {A} (m : M W A) (Q : Res A -> State W -> Prop) (s : State W) : Prop :=
  Q (fst (m s)) (snd (m s)).

Lemma wp_run {A} (m : M W A) (s : State W) (P : Res A * State W -> Prop) :
  wp m (fun r s' => P (r, s')) s -> P (m s).
Proof. unfold wp. destruct (m s); trivial. Qed.

Lemma wp_ret {A} (a : A) Q s : Q (Val a) s -> wp (ret a) Q s.
Proof. trivial. Qed.

Lemma wp_bind {A C} (m : M W A) (k : A -> M W C) Q s :
  wp m (fun r s1 => match r with
                    | Val a => wp (k a) Q s1
                    | Exc e => Q (Exc e) s1
                    end) s ->
  wp (bind m k) Q s.
Proof. unfold wp, bind. destruct (m s) as [[a|e] s1]; trivial. Qed.

Lemma wp_perform (a : Action) Q s :
  (forall t w, answer (world s) a = (mkReply Done t, w) ->
               Q (Val tt) (log a (mkReply Done t) w s)) ->
  (forall e t w, answer (world s) a = (mkReply (Raised e) t, w) ->
                 Q (Exc e) (log a (mkReply (Raised e) t) w s)) ->
  wp (perform a) Q s.
Proof.
  intros Hdone Hraised. unfold wp, perform.
  destruct (answer (world s) a) as [[[|e] t] w] eqn:E; cbn.
  - apply Hdone; reflexivity.
  - apply Hraised; reflexivity.
Qed.

Lemma wp_perform_then {C} (a : Action) (k : unit -> M W C) Q s :
  (forall t w, answer (world s) a = (mkReply Done t, w) ->
               wp (k tt) Q (log a (mkReply Done t) w s)) ->
  (forall e t w, answer (world s) a = (mkReply (Raised e) t, w) ->
                 Q (Exc e) (log a (mkReply (Raised e) t) w s)) ->
  wp (bind (perform a) k) Q s.
Proof.
  intros Hdone Hraised. apply wp_bind. apply wp_perform; trivial.
Qed.

Lemma wp_try_finally {A} (body : M W A) (fin : M W unit) Q s :
  wp body (fun r s1 =>
    wp fin (fun rf s2 =>
      Q (match rf with Val _ => r | Exc e => Exc e end) s2) s1) s ->
  wp (try_finally body fin) Q s.
Proof.
  unfold wp, try_finally. destruct (body s) as [r s1]. cbn.
  destruct (fin s1) as [[u|e] s2]; trivial.
Qed.

Lemma wp_try_except {A} (body : M W A) (handler : string -> M W A) Q s :
  wp body (fun r s1 => match r with
                       | Val a => Q (Val a) s1
                       | Exc e => wp (handler e) Q s1
                       end) s ->
  wp (try_except body handler) Q s.
Proof.
  unfold wp, try_except. destruct (body s) as [[a|e] s1]; trivial.
Qed.

Lemma wp_with {A} (enter leave : Action) (body : M W A) Q s :
  wp (bind (perform enter) (fun _ => try_finally body (perform leave))) Q s ->
  wp (with_ enter leave body) Q s.
Proof. trivial. Qed.

(** The letters [random_string] spells from the draws [pos], [pos + 1], ... *)
Fixpoint spelled (rnd : nat -> nat) (pos n : nat) : string :=
  match n with
  | 0 => ""
  | S k => String (nth (rnd pos mod 26) Verify.ascii_lowercase zero)
                  (spelled rnd (S pos) k)
  end.

Lemma random_string_run (n : nat) (s : State W) :
  Verify.random_string n s =
  (Val (spelled (entropy s) (drawn s) n),
   {| world := world s; entropy := entropy s; drawn := n + drawn s;
      trace := trace s |}).
Proof.
  revert s. induction n as [|n IH]; intros s.
  - destruct s; reflexivity.
  - cbn [Verify.random_string]. unfold bind at 1, random_choice.
    unfold bind. rewrite IH. unfold ret.
    cbn [spelled world entropy drawn trace].
    change (length Verify.ascii_lowercase) with 26.
    rewrite Nat.add_succ_r. reflexivity.
Qed.

Lemma wp_random_string_then {C} (n : nat) (k : string -> M W C) Q s :
  wp (k (spelled (entropy s) (drawn s) n)) Q
     {| world := world s; entropy := entropy s; drawn := n + drawn s;
        trace := trace s |} ->
  wp (bind (Verify.random_string n) k) Q s.
Proof.
  intros H. apply wp_bind. unfold wp at 1. rewrite random_string_run. exact H.
Qed.
End Wp.

Ltac unfold_scripts :=
  unfold program, Verify.main, Verify.body, VerifyInvalidImage.script,
    VerifyInvalidImage.run, VerifyInvalidImage.body,
    VerifyFeedbackFeature.run_verification, VerifyFeedbackFeature.body,
    VerifyFeedbackFeature.handler,
    VerifyVirtualTryOn.run_verification, VerifyVirtualTryOn.body,
    VerifyVirtualTryOn.handler,
    VerifyUpdate.script, VerifyUpdate.run.

(** One step of symbolic execution.  The equations on the answers of the
    world are kept as hypotheses named [Ans]. *)
Ltac wp_step :=
  lazymatch goal with
  | |- wp (with_ _ _ _) _ _ => apply wp_with
  | |- wp (bind (perform _) _) _ _ =>
      apply wp_perform_then;
      [ let t := fresh "t" in let w := fresh "w" in let Ans := fresh "Ans" in
        intros t w Ans
      | let e := fresh "e" in let t := fresh "t" in let w := fresh "w" in
        let Ans := fresh "Ans" in
        intros e t w Ans; try discriminate Ans ]
  | |- wp (perform _) _ _ =>
      apply wp_perform;
      [ let t := fresh "t" in let w := fresh "w" in let Ans := fresh "Ans" in
        intros t w Ans
      | let e := fresh "e" in let t := fresh "t" in let w := fresh "w" in
        let Ans := fresh "Ans" in
        intros e t w Ans; try discriminate Ans ]
  | |- wp (bind (Verify.random_string _) _) _ _ => apply wp_random_string_then
  | |- wp (try_finally _ _) _ _ => apply wp_try_finally
  | |- wp (try_except _ _) _ _ => apply wp_try_except
  | |- wp (ret _) _ _ => apply wp_ret
  | |- wp (bind _ _) _ _ => apply wp_bind
  end.

Ltac wp_exec := repeat (wp_step; cbv beta iota).

(** From a statement about [m s] to the weakest precondition of [m]. *)
Ltac wp_start m s :=
  pattern (m s);
  lazymatch goal with
  | |- ?P (m s) => refine (wp_run m s P _)
  end;
  unfold_scripts.

Ltac finish_run :=
  cbv beta iota zeta delta
    [result events actions log world entropy drawn trace outcome took
     fst snd app start].


Ltac by_execution :=
  unfold run;
  lazymatch goal with
  | |- context [@program ?W ?B ?sc (start ?w ?rnd)] =>
      wp_start (@program W B sc) (start w rnd); wp_exec; finish_run
  end.

(** ** Session teardown *)

Section Teardown.
Context {W : Type} {B : World W}.

(** X1.  How often [browser.close()] is called, for every scenario and every
    world: once when the session was opened, except that
    verify_invalid_image.py skips it when [context.close()] raises and
    verify_update.py reaches it only when every step passed. *)
Lemma teardown_count (sc : Scenario) (w : W) (rnd : nat -> nat) :
  let tr := events (run sc w rnd) in
  count is_browser_close tr =
  match sc with
  | VerifyPy | VerifyFeedbackFeaturePy | VerifyVirtualTryOnPy =>
      if page_opened tr then 1 else 0
  | VerifyInvalidImagePy =>
      if page_opened tr && negb (context_close_failed tr) then 1 else 0
  | VerifyUpdatePy =>
      if page_opened tr && negb (step_failed tr) then 1 else 0
  end.
Proof.
  destruct sc; cbv zeta; by_execution; reflexivity.
Qed.
End Teardown.

(** C1. verify_update.py has no [try]/[finally]: when the navigation raises,
    the exception leaves [run] before line 15 and [browser.close()] is never
    called, although the session had been opened. *)
Theorem verify_update_leaks_the_browser :
  let r := run (B := unreachable) VerifyUpdatePy tt no_draws in
  result r = Exc connection_refused /\
  actions r =
    [Playwright_start; Chromium_launch None; New_page; Time_sleep 5;
     Page_goto "http://localhost:3000/wardrobe"; Playwright_stop] /\
  page_opened (events r) = true /\
  count is_browser_close (events r) = 0.
Proof. vm_compute. repeat split. Qed.

(** ** What follows a failing step *)

(** What a scenario does once a step of its [try] block has raised [msg]:
    the actions [after] that follow it and the result [r] of the process.
    verify.py and verify_invalid_image.py have a [finally] and no [except];
    the other two with a [try] catch the exception, print it and take a
    screenshot of the page; verify_update.py has no [try] at all, and of it
    only that no step follows is recorded here. *)
Definition recovery (sc : Scenario) (msg : string) (after : list Action)
    (r : Res unit) : Prop :=
  match sc with
  | VerifyPy =>
      after = [Browser_close; Playwright_stop] /\ exit_status r = 1
  | VerifyInvalidImagePy =>
      (after = [Context_close; Browser_close; Playwright_stop] \/
       after = [Context_close; Playwright_stop]) /\ exit_status r = 1
  | VerifyFeedbackFeaturePy =>
      after = [Print ("An error occurred: " ++ msg);
               Page_screenshot "jules-scratch/verification/error.png";
               Browser_close; Playwright_stop]
  | VerifyVirtualTryOnPy =>
      after = [Print ("An error occurred during verification: " ++ msg);
               Page_screenshot "jules-scratch/verification/error_screenshot.png";
               Browser_close; Playwright_stop]
  | VerifyUpdatePy =>
      Forall (fun a => is_step a = false) after /\ exit_status r = 1
  end.

Section Abort.
Context {W : Type} {B : World W}.

(** C2, as amended.  In every scenario and every world, when a step raises,
    no later step of the scenario runs.  verify_feedback_feature.py and
    verify_virtual_try_on.py then print the error and take an error
    screenshot before [browser.close()]; verify.py and
    verify_invalid_image.py go straight to the teardown, without a
    screenshot, and the exception ends the process with status 1. *)
Theorem abort_on_first_failure (sc : Scenario) (w : W) (rnd : nat -> nat)
    (ev : Event) :
  first_failure (events (run sc w rnd)) = Some ev ->
  is_step (ev_action ev) = true ->
  recovery sc (message ev)
    (map ev_action (after_first_failure (events (run sc w rnd))))
    (result (run sc w rnd)).
Proof.
  destruct sc; by_execution; cbn;
    intros Hfirst Hstep; inversion Hfirst; subst ev; cbn in Hstep |- *;
    try discriminate Hstep; auto 6.
Qed.
End Abort.

(** The hypotheses of [abort_on_first_failure] are met when the homepage
    cannot be reached in verify_feedback_feature.py. *)
Lemma abort_on_first_failure_witness :
  let r := run (B := unreachable) VerifyFeedbackFeaturePy tt no_draws in
  let ev := mkEvent (Page_goto "http://localhost:3000")
                    (Raised connection_refused) 0%N in
  first_failure (events r) = Some ev /\
  is_step (ev_action ev) = true /\
  recovery VerifyFeedbackFeaturePy connection_refused
    (map ev_action (after_first_failure (events r))) (result r).
Proof.
  cbv zeta. split; [reflexivity|]. split; [reflexivity|].
  apply (abort_on_first_failure (B := unreachable) VerifyFeedbackFeaturePy tt
           no_draws
           (mkEvent (Page_goto "http://localhost:3000")
                    (Raised connection_refused) 0%N));
    reflexivity.
Defined.

(** C2, as stated, fails on verify.py: when the sign-up page cannot be
    reached, the step fails and the teardown follows at once; no screenshot
    is taken between the failure and [browser.close()]. *)
Lemma verify_takes_no_error_screenshot :
  let r := run (B := unreachable) VerifyPy tt no_draws in
  first_failure (events r) =
    Some (mkEvent (Page_goto "http://localhost:3000/auth/sign-up")
                  (Raised connection_refused) 0%N) /\
  map ev_action (after_first_failure (events r)) =
    [Browser_close; Playwright_stop] /\
  existsb (fun e => is_screenshot (ev_action e))
    (after_first_failure (events r)) = false.
Proof. vm_compute. repeat split. Qed.

(** ** Exit status *)

(** The screenshot of the [except] block of a scenario, when it has one. *)
Definition error_screenshot (sc : Scenario) : option string :=
  match sc with
  | VerifyFeedbackFeaturePy => Some "jules-scratch/verification/error.png"
  | VerifyVirtualTryOnPy =>
      Some "jules-scratch/verification/error_screenshot.png"
  | _ => None
  end.

(** What the [except] block prints before the text of the exception. *)
Definition error_prefix (sc : Scenario) : string :=
  match sc with
  | VerifyFeedbackFeaturePy => "An error occurred: "
  | VerifyVirtualTryOnPy => "An error occurred during verification: "
  | _ => ""
  end.

(** Whether an exception raised by [a] leaves the process.  Without an
    [except] block every exception does.  With one, the steps of the [try]
    block are guarded; the management of the session and the screenshot of
    the handler itself are not. *)
Definition escapes (sc : Scenario) (a : Action) : bool :=
  match error_screenshot sc with
  | None => true
  | Some path =>
      match a with
      | Page_screenshot p => String.eqb p path
      | _ => negb (is_step a)
      end
  end.

Definition escaped (sc : Scenario) (tr : list Event) : bool :=
  existsb (fun e => raised e && escapes sc (ev_action e)) tr.

Section ExitStatus.
Context {W : Type} {B : World W}.

Lemma exit_status_escaped (sc : Scenario) (w : W) (rnd : nat -> nat) :
  exit_status (result (run sc w rnd)) =
    (if escaped sc (events (run sc w rnd)) then 1 else 0).
Proof. destruct sc; by_execution; reflexivity. Qed.

(** In a scenario without [except], a call that raises ends the process
    with status 1. *)
Lemma uncaught_failure_exits_one (sc : Scenario) (w : W) (rnd : nat -> nat)
    (ev : Event) :
  error_screenshot sc = None ->
  In ev (events (run sc w rnd)) -> raised ev = true ->
  exit_status (result (run sc w rnd)) = 1.
Proof.
  intros Hnone Hin Hraised. rewrite exit_status_escaped.
  replace (escaped sc (events (run sc w rnd))) with true; [reflexivity|].
  symmetry. apply existsb_exists. exists ev. split; [exact Hin|].
  unfold escapes. rewrite Hnone, Hraised. reflexivity.
Qed.

(** C3, as amended.  The exit status is 1 exactly when an exception leaves
    the process.  In verify.py, verify_invalid_image.py and verify_update.py
    that is whenever a call raises.  In verify_feedback_feature.py and
    verify_virtual_try_on.py a step of the [try] block that raises is
    caught: its text is printed after the prefix of the handler, and the
    status stays 0 unless the session management or the error screenshot
    raises. *)
Theorem exit_status_of_run (sc : Scenario) (w : W) (rnd : nat -> nat) :
  exit_status (result (run sc w rnd)) =
    (if escaped sc (events (run sc w rnd)) then 1 else 0) /\
  (forall ev, In ev (events (run sc w rnd)) ->
     raised ev = true -> escapes sc (ev_action ev) = false ->
     In (Print (error_prefix sc ++ message ev)) (actions (run sc w rnd))).
Proof.
  split.
  - apply exit_status_escaped.
  - destruct sc; try (intros ev _ _ Hcaught; discriminate Hcaught);
      refine (proj1 (Forall_forall _ _) _); by_execution;
      repeat (refine (Forall_cons _ _ _);
              [intros Hraised Hcaught;
               try discriminate Hraised; try discriminate Hcaught;
               cbn; tauto|]);
      apply Forall_nil.
Qed.
End ExitStatus.

(** C3, as stated, fails on verify_feedback_feature.py: the navigation
    raises, and the process still ends with status 0. *)
Lemma feedback_failure_exits_zero :
  let r := run (B := unreachable) VerifyFeedbackFeaturePy tt no_draws in
  first_failure (events r) =
    Some (mkEvent (Page_goto "http://localhost:3000")
                  (Raised connection_refused) 0%N) /\
  result r = Val tt /\
  exit_status (result r) = 0.
Proof. vm_compute. repeat split. Qed.

(** ** The scenarios and the texts they wait for *)

Section Texts.
Context {W : Type} {B : World W}.


(** When the text does not show, the assertion raises and verify.py fails. *)
Lemma insufficiency_text_is_required (w : W) (rnd : nat -> nat)
    (m : string) (t : N) :
  In (mkEvent (Expect_visible (ByText Verify.insufficiency_message) None)
              (Raised m) t)
     (events (run VerifyPy w rnd)) ->
  exit_status (result (run VerifyPy w rnd)) = 1.
Proof.
  intros Hin.
  apply (uncaught_failure_exits_one VerifyPy w rnd _ eq_refl Hin eq_refl).
Qed.
End Texts.


(** ** Timeouts *)

(** The timeouts Playwright applies when a call passes none are constants of
    the library, not of the repository: they are parameters here.  The
    library documents 5000 ms for [expect] and 30000 ms for the waits of a
    page. *)
Record Timeouts : Type := mkTimeouts { expect_default : N; page_default : N }.

Definition playwright_defaults : Timeouts :=
  {| expect_default := 5000%N; page_default := 30000%N |}.

(** The time a wait on a condition may take before it raises. *)
Definition time_limit (d : Timeouts) (a : Action) : option N :=
  match a with
  | Expect_visible _ (Some t) => Some t
  | Expect_visible _ None => Some (expect_default d)
  | Wait_for_url _ | Wait_for_selector _ => Some (page_default d)
  | _ => None
  end.

(** A world honours the timeouts when a wait that returns normally did so
    within its limit. *)
Definition honours_timeouts {W : Type} {B : World W} (d : Timeouts) : Prop :=
  forall (w w' : W) (a : Action) (t l : N),
    respond w a = (mkReply Done t, w') ->
    time_limit d a = Some l -> (t <= l)%N.

Fixpoint Locator_eqb (x y : Locator) : bool :=
  match x, y with
  | Css s, Css s' => String.eqb s s'
  | ByLabel s, ByLabel s' => String.eqb s s'
  | ByText s, ByText s' => String.eqb s s'
  | ByRole r n, ByRole r' n' => String.eqb r r' && String.eqb n n'
  | Within p c, Within p' c' => Locator_eqb p p' && Locator_eqb c c'
  | _, _ => false
  end.

Lemma Locator_eqb_eq (x y : Locator) : Locator_eqb x y = true <-> x = y.
Proof.
  revert y. induction x as [s|s|s|r n|p IHp c IHc]; intros [s'|s'|s'|r' n'|p' c'];
    cbn; try (split; intros H; discriminate H).
  1-3: rewrite String.eqb_eq; split; intros H; [subst|inversion H]; reflexivity.
  - rewrite andb_true_iff, !String.eqb_eq.
    split; [intros [-> ->]|intros H; inversion H]; auto.
  - rewrite andb_true_iff, IHp, IHc.
    split; [intros [-> ->]|intros H; inversion H]; auto.
Qed.

(** The time from the start of [tr] to the end of its first event that
    satisfies [p]. *)
Fixpoint elapsed_until (p : Event -> bool) (tr : list Event) : option N :=
  match tr with
  | [] => None
  | e :: rest =>
      if p e then Some (ev_took e)
      else option_map (N.add (ev_took e)) (elapsed_until p rest)
  end.

(** What happened after the first action that satisfies [p] returned. *)
Fixpoint after (p : Action -> bool) (tr : list Event) : list Event :=
  match tr with
  | [] => []
  | e :: rest => if p (ev_action e) then rest else after p rest
  end.

Definition is_navigation (a : Action) : bool :=
  match a with Page_goto _ => true | _ => false end.


Definition saw (target : Locator) (e : Event) : bool :=
  match ev_action e with
  | Expect_visible l _ => Locator_eqb l target && negb (raised e)
  | _ => false
  end.

(** How long after the navigation [target] was seen visible. *)
Definition seen_after_navigation (target : Locator) (tr : list Event) : option N :=
  elapsed_until (saw target) (after is_navigation tr).


Ltac within_limit H :=
  repeat match goal with
  | Ans : answer _ ?a = (mkReply Done ?t, _) |- _ =>
      lazymatch a with
      | Expect_visible _ _ => idtac
      | Wait_for_selector _ => idtac
      | Wait_for_url _ => idtac
      end;
      let L := fresh "Limit" in
      pose proof (H _ _ _ _ _ Ans eq_refl) as L; cbn in L; clear Ans
  end.

Section Timing.
Context {W : Type} {B : World W}.
Variable d : Timeouts.
Hypothesis honoured : honours_timeouts d.


(** C7, as amended.  A run of verify_virtual_try_on.py that reaches its
    success message has seen the heading "Virtual Try-On" within the
    10000 ms its wait passes as a timeout.  The wait for the button
    "Generate Virtual Try-On" starts after that and passes no timeout: the
    button was seen within 10000 ms plus the default timeout of [expect]
    after the navigation. *)
Theorem virtual_try_on_scenario (w : W) (rnd : nat -> nat) :
  printed "Screenshot captured successfully."
    (events (run VerifyVirtualTryOnPy w rnd)) = true ->
  (In (Expect_visible (ByRole "heading" "Virtual Try-On") (Some 10000%N))
      (actions (run VerifyVirtualTryOnPy w rnd)) /\
   In (Expect_visible (ByRole "button" "Generate Virtual Try-On") None)
      (actions (run VerifyVirtualTryOnPy w rnd))) /\
  exists th tb,
    seen_after_navigation (ByRole "heading" "Virtual Try-On")
      (events (run VerifyVirtualTryOnPy w rnd)) = Some th /\
    (th <= 10000)%N /\
    seen_after_navigation (ByRole "button" "Generate Virtual Try-On")
      (events (run VerifyVirtualTryOnPy w rnd)) = Some tb /\
    (tb <= 10000 + expect_default d)%N.
Proof.
  by_execution; intros Hpass; try discriminate Hpass.
  all: within_limit honoured.
  all: (split; [cbn; tauto|]).
  all: do 2 eexists; cbv - [N.add N.le expect_default].
  all: (split; [reflexivity|]); (split; [eassumption|]);
       (split; [reflexivity|]); lia.
Qed.
End Timing.

(** The button shows 4 seconds after the heading, which shows 9 seconds
    after the navigation; a wait gives up at its limit. *)
Definition late_button : World unit :=
  fun w a =>
    match a with
    | Expect_visible l _ =>
        let shows : N :=
          if Locator_eqb l VerifyVirtualTryOn.try_on_heading then 9000%N else 4000%N in
        match time_limit playwright_defaults a with
        | Some limit =>
            if (shows <=? limit)%N then (mkReply Done shows, w)
            else (mkReply (Raised "Timeout exceeded") limit, w)
        | None => (mkReply Done shows, w)
        end
    | _ => (mkReply Done 0%N, w)
    end.

Lemma late_button_honours_timeouts :
  honours_timeouts (B := late_button) playwright_defaults.
Proof.
  intros w w' a t l Hanswer Hlimit.
  destruct a; try discriminate Hlimit.
  - inversion Hanswer; subst. inversion Hlimit; subst. lia.
  - inversion Hanswer; subst. inversion Hlimit; subst. lia.
  - unfold respond, late_button in Hanswer. rewrite Hlimit in Hanswer.
    destruct (N.leb_spec
                (if Locator_eqb target VerifyVirtualTryOn.try_on_heading
                 then 9000%N else 4000%N) l) as [Hle|Hgt];
      inversion Hanswer; subst; exact Hle.
Qed.

(** C7, as stated, fails: in a world that honours every timeout,
    verify_virtual_try_on.py passes although the button shows 13 seconds
    after the navigation. *)
Lemma try_on_button_later_than_ten_seconds :
  let r := run (B := late_button) VerifyVirtualTryOnPy tt no_draws in
  honours_timeouts (B := late_button) playwright_defaults /\
  printed "Screenshot captured successfully." (events r) = true /\
  first_failure (events r) = None /\
  seen_after_navigation (ByRole "button" "Generate Virtual Try-On") (events r)
    = Some 13000%N /\
  (10000 < 13000)%N.
Proof.
  cbv zeta. split; [exact late_button_honours_timeouts|].
  vm_compute. repeat split.
Qed.

(** The hypotheses of [virtual_try_on_scenario] are met in that world. *)
Lemma virtual_try_on_scenario_witness :
  let r := run (B := late_button) VerifyVirtualTryOnPy tt no_draws in
  printed "Screenshot captured successfully." (events r) = true /\
  exists th tb,
    seen_after_navigation (ByRole "heading" "Virtual Try-On") (events r)
      = Some th /\
    (th <= 10000)%N /\
    seen_after_navigation (ByRole "button" "Generate Virtual Try-On") (events r)
      = Some tb /\
    (tb <= 10000 + 5000)%N.
Proof.
  cbv zeta. split; [reflexivity|].
  exact (proj2 (virtual_try_on_scenario (B := late_button) playwright_defaults
                  late_button_honours_timeouts tt no_draws eq_refl)).
Defined.

(** A world that answers at once honours every timeout. *)
Lemma all_ok_honours_timeouts (d : Timeouts) :
  honours_timeouts (B := all_ok) d.
Proof.
  intros w w' a t l Hanswer _. inversion Hanswer; subst. apply N.le_0_l.
Qed.


(** ** Waits and sleeps *)


Section Waits.
Context {W : Type} {B : World W}.

End Waits.



(** ** Screenshots that cannot be written *)

(** What a scenario prints when all its steps passed, if it prints. *)
Definition success_message (sc : Scenario) : string :=
  match sc with
  | VerifyFeedbackFeaturePy => "Screenshot taken successfully."
  | VerifyVirtualTryOnPy => "Screenshot captured successfully."
  | _ => ""
  end.

Section Capture.
Context {W : Type} {B : World W}.

(** C5, as amended.  [screenshot] is a call like any other: when it raises,
    the scenario fails.  In verify.py, verify_invalid_image.py and
    verify_update.py, and for the screenshot of an [except] block, the
    exception ends the process with status 1.  In
    verify_feedback_feature.py and verify_virtual_try_on.py a screenshot of
    the [try] block that raises is caught like any step: the error is
    printed and the success message is not. *)
Theorem failed_screenshot_fails_the_run (sc : Scenario) (w : W)
    (rnd : nat -> nat) (ev : Event) :
  In ev (events (run sc w rnd)) ->
  is_screenshot (ev_action ev) = true ->
  raised ev = true ->
  if escapes sc (ev_action ev)
  then exit_status (result (run sc w rnd)) = 1
  else printed (error_prefix sc ++ message ev) (events (run sc w rnd)) = true /\
       printed (success_message sc) (events (run sc w rnd)) = false.
Proof.
  revert ev. refine (proj1 (Forall_forall _ _) _).
  destruct sc; by_execution;
    repeat (refine (Forall_cons _ _ _);
            [intros Hshot Hraised;
             try discriminate Hshot; try discriminate Hraised;
             cbn; rewrite ?String.eqb_refl, ?orb_true_r; auto|]);
    apply Forall_nil.
Qed.
End Capture.

(** The hypotheses of [failed_screenshot_fails_the_run] are met by
    verify.py on a full disk. *)
Lemma failed_screenshot_fails_the_run_witness :
  let r := run (B := disk_full) VerifyPy tt no_draws in
  let ev := mkEvent (Page_screenshot "jules-scratch/verification/signup-page.png")
                    (Raised "ENOSPC: no space left on device") 0%N in
  In ev (events r) /\ exit_status (result r) = 1.
Proof.
  cbv zeta.
  assert (Hin : In (mkEvent
                      (Page_screenshot "jules-scratch/verification/signup-page.png")
                      (Raised "ENOSPC: no space left on device") 0%N)
                   (events (run (B := disk_full) VerifyPy tt no_draws)))
    by (cbn; tauto).
  split; [exact Hin|].
  exact (failed_screenshot_fails_the_run (B := disk_full) VerifyPy tt no_draws
           _ Hin eq_refl eq_refl).
Defined.

(** C5, as stated, fails on verify.py: two worlds that answer every call
    alike, except that one cannot write screenshots, give different exit
    statuses. *)
Lemma screenshot_failure_changes_the_outcome :
  (forall a, is_screenshot a = false -> disk_full tt a = all_ok tt a) /\
  exit_status (result (run (B := all_ok) VerifyPy tt no_draws)) = 0 /\
  exit_status (result (run (B := disk_full) VerifyPy tt no_draws)) = 1.
Proof.
  split; [|vm_compute; split; reflexivity].
  intros a Hother. unfold disk_full. rewrite Hother. reflexivity.
Qed.

(** ** Two runs of one scenario *)

(** Two streams of draws agree when they make [random_string(10)] spell the
    same letters: the first ten draws select the same index of the
    alphabet. *)
Definition agree (r1 r2 : nat -> nat) : Prop :=
  forall i, i < 10 -> r1 i mod 26 = r2 i mod 26.

Lemma spelled_agree (r1 r2 : nat -> nat) (n pos : nat) :
  (forall i, pos <= i -> i < pos + n -> r1 i mod 26 = r2 i mod 26) ->
  spelled r1 pos n = spelled r2 pos n.
Proof.
  revert pos. induction n as [|n IH]; intros pos Hsame; cbn [spelled].
  - reflexivity.
  - rewrite (Hsame pos) by lia. f_equal. apply IH. intros i Hlo Hhi.
    apply Hsame; lia.
Qed.

Section TwoRuns.
Context {W : Type} {B : World W}.

(** What two runs have in common, whatever their draws. *)
Definition same_view (s1 s2 : State W) : Prop :=
  world s1 = world s2 /\ trace s1 = trace s2.

(** A condition on the draws of two states. *)
Definition Draws : Type := (nat -> nat) -> nat -> (nat -> nat) -> nat -> Prop.

Definition any_draws : Draws := fun _ _ _ _ => True.

Definition fresh_and_agreeing : Draws :=
  fun r1 d1 r2 d2 => d1 = 0 /\ d2 = 0 /\ agree r1 r2.

(** [m] behaves alike from two states with the same view whose draws
    satisfy [C]. *)
Definition respects {A} (C : Draws) (m : M W A) : Prop :=
  forall s1 s2, same_view s1 s2 ->
    C (entropy s1) (drawn s1) (entropy s2) (drawn s2) ->
    fst (m s1) = fst (m s2) /\ same_view (snd (m s1)) (snd (m s2)).

(** [m] draws nothing. *)
Definition frugal {A} (m : M W A) : Prop :=
  forall s, entropy (snd (m s)) = entropy s /\ drawn (snd (m s)) = drawn s.

Lemma respects_any {A} (C : Draws) (m : M W A) :
  respects any_draws m -> respects C m.
Proof. intros Hm s1 s2 Hview _. apply Hm; [exact Hview | exact I]. Qed.

Lemma respects_ret {A} (a : A) : respects any_draws (ret a).
Proof. intros s1 s2 Hview _. split; [reflexivity | exact Hview]. Qed.

Lemma respects_perform (a : Action) : respects any_draws (perform a).
Proof.
  intros s1 s2 [Hworld Htrace] _. unfold perform, same_view, log.
  rewrite Hworld. destruct (answer (world s2) a) as [r w]. cbn.
  rewrite Htrace. auto.
Qed.

Lemma frugal_perform (a : Action) : frugal (perform a).
Proof.
  intros s. unfold perform. destruct (answer (world s) a) as [r w].
  split; reflexivity.
Qed.

(** Sequencing after a statement that draws nothing keeps the condition. *)
Lemma respects_bind_frugal {A C} (D : Draws) (m : M W A) (k : A -> M W C) :
  frugal m -> respects any_draws m -> (forall a, respects D (k a)) ->
  respects D (bind m k).
Proof.
  intros Hfrugal Hm Hk s1 s2 Hview Hdraws. unfold bind.
  destruct (Hm s1 s2 Hview I) as [Hres Hview'].
  destruct (Hfrugal s1) as [He1 Hd1]. destruct (Hfrugal s2) as [He2 Hd2].
  destruct (m s1) as [r1 s1'], (m s2) as [r2 s2']. cbn in *. subst r2.
  destruct r1 as [a|e].
  - apply Hk; [exact Hview'|]. rewrite He1, Hd1, He2, Hd2. exact Hdraws.
  - split; [reflexivity | exact Hview'].
Qed.

(** Sequencing before statements that do not look at the draws. *)
Lemma respects_bind {A C} (D : Draws) (m : M W A) (k : A -> M W C) :
  respects D m -> (forall a, respects any_draws (k a)) ->
  respects D (bind m k).
Proof.
  intros Hm Hk s1 s2 Hview Hdraws. unfold bind.
  destruct (Hm s1 s2 Hview Hdraws) as [Hres Hview'].
  destruct (m s1) as [r1 s1'], (m s2) as [r2 s2']. cbn in *. subst r2.
  destruct r1 as [a|e].
  - apply Hk; [exact Hview' | exact I].
  - split; [reflexivity | exact Hview'].
Qed.

Lemma respects_try_finally {A} (D : Draws) (body : M W A) (fin : M W unit) :
  respects D body -> respects any_draws fin ->
  respects D (try_finally body fin).
Proof.
  intros Hbody Hfin s1 s2 Hview Hdraws. unfold try_finally.
  destruct (Hbody s1 s2 Hview Hdraws) as [Hres Hview'].
  destruct (body s1) as [r1 s1'], (body s2) as [r2 s2']. cbn in *. subst r2.
  destruct (Hfin s1' s2' Hview' I) as [Hres' Hview''].
  destruct (fin s1') as [f1 s1''], (fin s2') as [f2 s2'']. cbn in *. subst f2.
  destruct f1; split; auto.
Qed.

Lemma respects_try_except {A} (D : Draws) (body : M W A)
    (handler : string -> M W A) :
  respects D body -> (forall e, respects any_draws (handler e)) ->
  respects D (try_except body handler).
Proof.
  intros Hbody Hhandler s1 s2 Hview Hdraws. unfold try_except.
  destruct (Hbody s1 s2 Hview Hdraws) as [Hres Hview'].
  destruct (body s1) as [r1 s1'], (body s2) as [r2 s2']. cbn in *. subst r2.
  destruct r1 as [a|e].
  - split; [reflexivity | exact Hview'].
  - apply Hhandler; [exact Hview' | exact I].
Qed.

Lemma respects_with {A} (D : Draws) (enter leave : Action) (body : M W A) :
  respects D body -> respects D (with_ enter leave body).
Proof.
  intros Hbody. unfold with_.
  apply respects_bind_frugal;
    [apply frugal_perform | apply respects_perform |].
  intros _. apply respects_try_finally; [exact Hbody | apply respects_perform].
Qed.

(** [random_string(10)], from the first draw on, spells the same letters
    for agreeing draws. *)
Lemma respects_random_string :
  respects fresh_and_agreeing (Verify.random_string 10).
Proof.
  intros s1 s2 [Hworld Htrace] (Hd1 & Hd2 & Hagree).
  rewrite !random_string_run. cbn [fst snd]. rewrite Hd1, Hd2. split.
  - f_equal. apply spelled_agree. intros i _ Hi. apply Hagree. exact Hi.
  - split; assumption.
Qed.
End TwoRuns.

Ltac respectful_step :=
  lazymatch goal with
  | |- respects any_draws (ret _) => apply respects_ret
  | |- respects any_draws (perform _) => apply respects_perform
  | |- respects _ (perform _) => apply respects_any, respects_perform
  | |- respects fresh_and_agreeing (Verify.random_string 10) =>
      apply respects_random_string
  | |- respects _ (with_ _ _ _) => apply respects_with
  | |- respects _ (try_finally _ _) => apply respects_try_finally
  | |- respects _ (try_except _ _) => apply respects_try_except; [|intros ?]
  | |- respects _ (bind (perform _) _) =>
      apply respects_bind_frugal;
      [apply frugal_perform | apply respects_perform | intros ?]
  | |- respects _ (bind _ _) => apply respects_bind; [|intros ?]
  end.

Ltac respectful := repeat respectful_step.

Section Determinism.
Context {W : Type} {B : World W}.

Lemma verify_respects_draws :
  respects fresh_and_agreeing (program VerifyPy).
Proof. unfold_scripts. respectful. Qed.

Lemma other_scenarios_ignore_draws (sc : Scenario) :
  sc <> VerifyPy -> respects any_draws (program sc).
Proof.
  intros Hother. destruct sc; try contradiction; unfold_scripts; respectful.
Qed.

(** C9, as amended.  Two runs of one scenario from the same state of the
    world give the same result, the same trace and the same final world,
    provided that, for verify.py, the random generator draws the same ten
    letters in both runs.  The other scenarios draw nothing. *)
Theorem same_world_same_draws_same_run (sc : Scenario) (w : W)
    (r1 r2 : nat -> nat) :
  (sc = VerifyPy -> agree r1 r2) ->
  result (run sc w r1) = result (run sc w r2) /\
  events (run sc w r1) = events (run sc w r2) /\
  world (snd (run sc w r1)) = world (snd (run sc w r2)).
Proof.
  intros Hdraws.
  assert (Hview : same_view (start w r1) (start w r2))
    by (split; reflexivity).
  assert (Hrun : fst (run sc w r1) = fst (run sc w r2) /\
                 same_view (snd (run sc w r1)) (snd (run sc w r2))).
  { unfold run. destruct sc.
    1: apply verify_respects_draws;
         [exact Hview | repeat split; auto].
    all: apply other_scenarios_ignore_draws;
           [discriminate | exact Hview | exact I]. }
  destruct Hrun as [Hres [Hworld Htrace]]. unfold result, events. auto.
Qed.
End Determinism.

(** The address "user_aaaaaaaaaa@example.com" is refused by this
    application, every other one is accepted. *)
Definition picky : World unit :=
  fun w a =>
    match a with
    | Fill _ value =>
        if String.eqb value "user_aaaaaaaaaa@example.com"
        then (mkReply (Raised "Invalid email") 0%N, w)
        else (mkReply Done 0%N, w)
    | _ => (mkReply Done 0%N, w)
    end.

(** The hypothesis of [same_world_same_draws_same_run] is met by draws that
    differ by a multiple of 26. *)
Lemma same_world_same_draws_same_run_witness :
  agree (fun _ => 0) (fun _ => 26) /\
  result (run (B := picky) VerifyPy tt (fun _ => 0)) =
  result (run (B := picky) VerifyPy tt (fun _ => 26)).
Proof.
  assert (Hagree : agree (fun _ => 0) (fun _ => 26))
    by (intros i _; reflexivity).
  split; [exact Hagree|].
  exact (proj1 (same_world_same_draws_same_run (B := picky) VerifyPy tt
                  (fun _ => 0) (fun _ => 26) (fun _ => Hagree))).
Defined.

(** C9, as stated, fails on verify.py: against the same application in the
    same state, the run that draws "aaaaaaaaaa" fails and the run that draws
    "bbbbbbbbbb" passes. *)
Lemma verify_outcome_depends_on_the_draws :
  let first := run (B := picky) VerifyPy tt (fun _ => 0) in
  let second := run (B := picky) VerifyPy tt (fun _ => 1) in
  exit_status (result first) = 1 /\
  exit_status (result second) = 0 /\
  nth_error (actions first) 5 =
    Some (Fill (ByLabel "Email") "user_aaaaaaaaaa@example.com") /\
  nth_error (actions second) 5 =
    Some (Fill (ByLabel "Email") "user_bbbbbbbbbb@example.com").
Proof. vm_compute. repeat split. Qed.

(** ** create_image.py *)

Section Image.

Lemma extend_row_concat (n : nat) (row color : list Z) :
  CreateImage.extend_row n row color = (row ++ concat (repeat color n))%list.
Proof.
  revert row. induction n as [|n IH]; intros row; cbn.
  - rewrite app_nil_r. reflexivity.
  - rewrite IH, <- app_assoc. reflexivity.
Qed.

Lemma append_rows_repeat (n : nat) (img : list (list Z)) (width : Z)
    (color : list Z) :
  CreateImage.append_rows n img width color =
  (img ++ repeat (concat (repeat color (Z.to_nat width))) n)%list.
Proof.
  revert img. induction n as [|n IH]; intros img; cbn.
  - rewrite app_nil_r. reflexivity.
  - rewrite IH, extend_row_concat, <- app_assoc. reflexivity.
Qed.

Lemma image_repeat (width height : Z) (color : list Z) :
  CreateImage.image width height color =
  repeat (concat (repeat color (Z.to_nat width))) (Z.to_nat height).
Proof. unfold CreateImage.image. apply append_rows_repeat. Qed.

Lemma length_concat_repeat (color : list Z) (n : nat) :
  length (concat (repeat color n)) = n * length color.
Proof.
  induction n as [|n IH]; cbn; [reflexivity|].
  rewrite length_app, IH. reflexivity.
Qed.

End Image.

Section ImageFile.
Context {W : Type} {B : World W}.


End ImageFile.


Example placeholder_two_by_two :
  CreateImage.image 2 2 [255; 255; 255]%Z =
  [[255; 255; 255; 255; 255; 255]; [255; 255; 255; 255; 255; 255]]%Z.
Proof. reflexivity. Qed.

(** The [__main__] block writes a white image of 100 by 100 pixels. *)
Example placeholder_script_run :
  actions (CreateImage.script (B := all_ok) (start tt no_draws)) =
    [File_open "src/app/wardrobe/placeholder.png" "wb";
     Png_Writer 100 100 false;
     Png_write (repeat (concat (repeat [255; 255; 255]%Z 100)) 100);
     File_close].
Proof. vm_compute. reflexivity. Qed.

(** * Further properties of the scripts *)

(** ** The life of a session *)

Definition is_playwright_stop (a : Action) : bool :=
  match a with Playwright_stop => true | _ => false end.

(** Whether the first call of the run, entering [sync_playwright()],
    returned. *)
Definition started (tr : list Event) : bool :=
  match tr with
  | e :: _ => negb (raised e)
  | [] => false
  end.

(** Chromium is not installed: the launch raises. *)
Definition no_browser : World unit :=
  fun w a =>
    match a with
    | Chromium_launch _ =>
        (mkReply (Raised "Executable doesn't exist") 0%N, w)
    | _ => (mkReply Done 0%N, w)
    end.

Section Session.
Context {W : Type} {B : World W}.

(** X2.  The [with sync_playwright()] block of every script is left exactly
    once: when entering it raised, the run consists of that call alone;
    otherwise Playwright is stopped exactly once, as the last call of the
    run, whatever raised in between. *)
Theorem playwright_stopped_last (sc : Scenario) (w : W) (rnd : nat -> nat) :
  if started (events (run sc w rnd))
  then count is_playwright_stop (events (run sc w rnd)) = 1 /\
       last (actions (run sc w rnd)) Playwright_start = Playwright_stop
  else actions (run sc w rnd) = [Playwright_start] /\
       exit_status (result (run sc w rnd)) = 1.
Proof.
  destruct sc; by_execution; split; reflexivity.
Qed.

(** X3.  No script touches the browser after [browser.close()]: whatever
    the world answers, the only call that can follow the first
    [browser.close()] is the stop of Playwright. *)
Theorem nothing_after_browser_close (sc : Scenario) (w : W)
    (rnd : nat -> nat) :
  Forall (fun a => a = Playwright_stop)
    (map ev_action (after is_browser_close (events (run sc w rnd)))).
Proof.
  destruct sc; by_execution; cbn; repeat constructor.
Qed.

(** X4.  No step runs without a page: when the launch, the new context or
    the new page raised, the run contains no step at all, not even the
    error screenshot of an [except] block, and the process ends with
    status 1. *)
Theorem no_step_without_page (sc : Scenario) (w : W) (rnd : nat -> nat) :
  page_opened (events (run sc w rnd)) = false ->
  Forall (fun a => is_step a = false) (actions (run sc w rnd)) /\
  exit_status (result (run sc w rnd)) = 1.
Proof.
  destruct sc; by_execution; intros Hclosed; try discriminate Hclosed.
  all: clear; cbn; split.
  all: try reflexivity; repeat constructor.
Qed.
End Session.

(** The hypothesis of [no_step_without_page] is met when the browser cannot
    be launched. *)
Lemma no_step_without_page_witness :
  let r := run (B := no_browser) VerifyFeedbackFeaturePy tt no_draws in
  page_opened (events r) = false /\
  Forall (fun a => is_step a = false) (actions r) /\
  exit_status (result r) = 1.
Proof.
  cbv zeta. split; [reflexivity|].
  apply (no_step_without_page (B := no_browser) VerifyFeedbackFeaturePy tt
           no_draws).
  reflexivity.
Defined.

(** ** The random address of verify.py *)

Lemma length_append (s1 s2 : string) :
  String.length (s1 ++ s2) = String.length s1 + String.length s2.
Proof. induction s1 as [|c s1 IH]; cbn; [reflexivity | rewrite IH; reflexivity]. Qed.

Lemma spelled_length (rnd : nat -> nat) (pos n : nat) :
  String.length (spelled rnd pos n) = n.
Proof.
  revert pos. induction n as [|n IH]; intros pos; cbn; [|rewrite IH]; reflexivity.
Qed.

Lemma spelled_get (rnd : nat -> nat) (pos n i : nat) :
  i < n ->
  String.get i (spelled rnd pos n) =
  Some (nth (rnd (pos + i) mod 26) Verify.ascii_lowercase zero).
Proof.
  revert pos i. induction n as [|n IH]; intros pos i Hi; [lia|].
  cbn [spelled]. destruct i as [|i]; cbn [String.get].
  - rewrite Nat.add_0_r. reflexivity.
  - rewrite IH by lia. rewrite Nat.add_succ_r. reflexivity.
Qed.

Lemma spelled_lowercase (rnd : nat -> nat) (pos n : nat) (c : ascii) :
  In c (list_ascii_of_string (spelled rnd pos n)) ->
  In c Verify.ascii_lowercase.
Proof.
  revert pos. induction n as [|n IH]; intros pos; cbn [spelled list_ascii_of_string].
  - intros [].
  - intros [<-|Hrest]; [|exact (IH _ Hrest)].
    apply nth_In. change (length Verify.ascii_lowercase) with 26.
    apply Nat.mod_upper_bound. discriminate.
Qed.

Section RandomString.
Context {W : Type} {B : World W}.

(** X5.  [random_string(n)] never raises and calls nothing: it returns a
    string of exactly [n] characters, all of them lowercase letters, the
    [i]-th one chosen by the [i]-th draw it consumes, and it consumes
    exactly [n] draws.  For [n = 0] the string is empty. *)
Theorem random_string_letters (n : nat) (s : State W) :
  exists str,
    Verify.random_string n s =
      (Val str,
       {| world := world s; entropy := entropy s; drawn := n + drawn s;
          trace := trace s |}) /\
    String.length str = n /\
    (forall c, In c (list_ascii_of_string str) ->
               In c (list_ascii_of_string "abcdefghijklmnopqrstuvwxyz")) /\
    (forall i, i < n ->
       String.get i str =
       Some (nth (entropy s (drawn s + i) mod 26)
                 (list_ascii_of_string "abcdefghijklmnopqrstuvwxyz") zero)).
Proof.
  exists (spelled (entropy s) (drawn s) n).
  split; [apply random_string_run|].
  split; [apply spelled_length|].
  split; [intros c; apply spelled_lowercase | intros i; apply spelled_get].
Qed.

(** X6.  Whatever the application answers, the only address verify.py ever
    types into the Email field is "user_", ten lowercase letters spelled by
    the first ten draws, and "@example.com": 27 characters. *)
Theorem email_is_well_formed (w : W) (rnd : nat -> nat) (v : string) :
  In (Fill (ByLabel "Email") v) (actions (run VerifyPy w rnd)) ->
  exists letters,
    v = "user_" ++ letters ++ "@example.com" /\
    letters = spelled rnd 0 10 /\
    String.length letters = 10 /\
    (forall c, In c (list_ascii_of_string letters) ->
               In c (list_ascii_of_string "abcdefghijklmnopqrstuvwxyz")) /\
    String.length v = 27.
Proof.
  assert (Hgood : forall a, In a (actions (run VerifyPy w rnd)) ->
            forall v', a = Fill (ByLabel "Email") v' ->
            v' = "user_" ++ spelled rnd 0 10 ++ "@example.com").
  { refine (proj1 (Forall_forall _ _) _). by_execution; cbn [map ev_action].
    all: repeat (refine (Forall_cons _ _ _);
                 [intros v' Hfill; try discriminate Hfill;
                  injection Hfill as <-; reflexivity|]).
    all: apply Forall_nil. }
  intros Hin. exists (spelled rnd 0 10).
  pose proof (Hgood _ Hin v eq_refl) as ->.
  split; [reflexivity|]. split; [reflexivity|].
  split; [apply spelled_length|].
  split; [intros c; apply spelled_lowercase|].
  rewrite !length_append, spelled_length. reflexivity.
Qed.
End RandomString.

(** The hypothesis of [email_is_well_formed] is met when every call
    succeeds. *)
Lemma email_is_well_formed_witness :
  In (Fill (ByLabel "Email") "user_aaaaaaaaaa@example.com")
     (actions (run (B := all_ok) VerifyPy tt no_draws)) /\
  exists letters,
    "user_aaaaaaaaaa@example.com" = "user_" ++ letters ++ "@example.com" /\
    letters = spelled no_draws 0 10 /\
    String.length letters = 10 /\
    (forall c, In c (list_ascii_of_string letters) ->
               In c (list_ascii_of_string "abcdefghijklmnopqrstuvwxyz")) /\
    String.length "user_aaaaaaaaaa@example.com" = 27.
Proof.
  assert (Hin : In (Fill (ByLabel "Email") "user_aaaaaaaaaa@example.com")
                   (actions (run (B := all_ok) VerifyPy tt no_draws)))
    by (cbn; tauto).
  split; [exact Hin|].
  exact (email_is_well_formed (B := all_ok) tt no_draws _ Hin).
Defined.

(** ** What a run reports and leaves behind *)

Definition is_print (a : Action) : bool :=
  match a with Print _ => true | _ => false end.

(** Whether the message of the [except] block was printed. *)
Definition error_printed (sc : Scenario) (tr : list Event) : bool :=
  existsb (fun e => match ev_action e with
                    | Print s => String.prefix (error_prefix sc) s
                    | _ => false
                    end) tr.

(** The screenshot files a run has written, in order. *)
Fixpoint written (tr : list Event) : list string :=
  match tr with
  | [] => []
  | e :: rest =>
      match ev_action e, ev_outcome e with
      | Page_screenshot p, Done => p :: written rest
      | Locator_screenshot _ p, Done => p :: written rest
      | _, _ => written rest
      end
  end.

(** The lists of files a scenario can leave behind. *)
Definition possible_artifacts (sc : Scenario) : list (list string) :=
  match sc with
  | VerifyPy =>
      [ [];
        ["jules-scratch/verification/signup-page.png"];
        ["jules-scratch/verification/signup-page.png";
         "jules-scratch/verification/insufficient-items.png"] ]
  | VerifyInvalidImagePy | VerifyUpdatePy =>
      [ []; ["jules-scratch/verification/verification.png"] ]
  | VerifyFeedbackFeaturePy =>
      [ [];
        ["jules-scratch/verification/feedback_feature.png"];
        ["jules-scratch/verification/error.png"] ]
  | VerifyVirtualTryOnPy =>
      [ [];
        ["jules-scratch/verification/virtual_try_on_feature.png"];
        ["jules-scratch/verification/error_screenshot.png"] ]
  end.

Lemma prefix_append (s e : string) : String.prefix s (s ++ e) = true.
Proof.
  induction s as [|c s IH]; cbn.
  - destruct e; reflexivity.
  - rewrite IH. destruct (ascii_dec c c) as [_|Hneq]; [reflexivity|].
    contradiction Hneq. reflexivity.
Qed.

Section Reports.
Context {W : Type} {B : World W}.

(** X7.  The scripts without [except] print nothing.  The two with one print
    exactly one verdict once the page is open: the success message when no
    step raised, the error message when a step raised, never both, and
    nothing when the page could not be opened. *)
Theorem one_verdict_line (sc : Scenario) (w : W) (rnd : nat -> nat) :
  match error_screenshot sc with
  | None => existsb is_print (actions (run sc w rnd)) = false
  | Some _ =>
      printed (success_message sc) (events (run sc w rnd)) =
        page_opened (events (run sc w rnd)) &&
        negb (step_failed (events (run sc w rnd))) /\
      error_printed sc (events (run sc w rnd)) =
        page_opened (events (run sc w rnd)) &&
        step_failed (events (run sc w rnd))
  end.
Proof.
  destruct sc; cbn [error_screenshot]; by_execution.
  all: try reflexivity.
  all: unfold error_printed, error_prefix; cbn [existsb ev_action];
       rewrite ?prefix_append; split; reflexivity.
Qed.

(** X8.  The screenshot files a run leaves behind, in every world: verify.py
    writes insufficient-items.png only after signup-page.png; the feedback
    and try-on scripts write either their feature screenshot or their error
    screenshot, never both; the other two write verification.png or
    nothing. *)
Theorem artifacts_of_run (sc : Scenario) (w : W) (rnd : nat -> nat) :
  In (written (events (run sc w rnd))) (possible_artifacts sc).
Proof.
  destruct sc; by_execution; cbn; auto 6.
Qed.
End Reports.

(** ** The order of the calls *)

(** The events of a run up to its first call that raised, that call
    included. *)
Fixpoint until_first_failure (tr : list Event) : list Event :=
  match tr with
  | [] => []
  | e :: rest => e :: (if raised e then [] else until_first_failure rest)
  end.

(** The calls of the run in which every call succeeds. *)
Definition planned (sc : Scenario) (rnd : nat -> nat) : list Action :=
  actions (run (B := all_ok) sc tt rnd).

Section Order.
Context {W : Type} {B : World W}.

(** X9.  The application never changes what a script does next, only how
    far it gets: in every world, the calls of a run up to its first failure
    are an initial segment of the calls of the all-succeeding run with the
    same draws, in the same order and with the same arguments. *)
Theorem calls_follow_the_plan (sc : Scenario) (w : W) (rnd : nat -> nat) :
  let made := map ev_action (until_first_failure (events (run sc w rnd))) in
  made = firstn (length made) (planned sc rnd).
Proof.
  cbv zeta. destruct sc; by_execution; reflexivity.
Qed.
End Order.

(** ** Time *)

Definition is_new_page (a : Action) : bool :=
  match a with New_page => true | _ => false end.

Definition navigated (e : Event) : bool := is_navigation (ev_action e).

Section Delay.
Context {W : Type} {B : World W}.

(** X10.  verify_update.py always pays its fixed delay: once the page is
    open the script does navigate, and its navigation returns no sooner
    than 5000 ms after the page was opened, however fast the application
    is. *)
Theorem update_navigates_after_five_seconds (w : W) (rnd : nat -> nat) :
  page_opened (events (run VerifyUpdatePy w rnd)) = true ->
  exists t,
    elapsed_until navigated
      (after is_new_page (events (run VerifyUpdatePy w rnd))) = Some t /\
    (5000 <= t)%N.
Proof.
  by_execution; intros Hopen; try discriminate Hopen.
  all: repeat match goal with
       | Ans : answer _ (Time_sleep _) = _ |- _ =>
           inversion Ans; subst; clear Ans
       end.
  all: eexists; split; [reflexivity|]; cbn [ev_took]; lia.
Qed.
End Delay.

(** The hypothesis of [update_navigates_after_five_seconds] is met when
    every call returns at once. *)
Lemma update_navigates_after_five_seconds_witness :
  let r := run (B := all_ok) VerifyUpdatePy tt no_draws in
  page_opened (events r) = true /\
  exists t,
    elapsed_until navigated (after is_new_page (events r)) = Some t /\
    (5000 <= t)%N.
Proof.
  cbv zeta. split; [reflexivity|].
  exact (update_navigates_after_five_seconds (B := all_ok) tt no_draws eq_refl).
Defined.

Section FeedbackTiming.
Context {W : Type} {B : World W}.
Variable d : Timeouts.
Hypothesis honoured : honours_timeouts d.

(** X11.  A run of verify_feedback_feature.py that reaches its success
    message, in a world that honours timeouts, has seen the outfit
    recommender within the 15000 ms its wait passes, counted from the
    return of the navigation, and the last of its four checks, the Dislike
    button, within 15000 ms plus three default timeouts of [expect]. *)
Theorem feedback_scenario_timing (w : W) (rnd : nat -> nat) :
  printed "Screenshot taken successfully."
    (events (run VerifyFeedbackFeaturePy w rnd)) = true ->
  exists tr td,
    seen_after_navigation (Css "div.bg-white.p-6.rounded-lg.shadow-md")
      (events (run VerifyFeedbackFeaturePy w rnd)) = Some tr /\
    (tr <= 15000)%N /\
    seen_after_navigation (ByRole "button" "Dislike")
      (events (run VerifyFeedbackFeaturePy w rnd)) = Some td /\
    (td <= 15000 + 3 * expect_default d)%N.
Proof.
  by_execution; intros Hpass; try discriminate Hpass.
  all: within_limit honoured.
  all: do 2 eexists; cbv - [N.add N.le N.mul expect_default].
  all: (split; [reflexivity|]); (split; [eassumption|]);
       (split; [reflexivity|]); lia.
Qed.
End FeedbackTiming.

(** The hypotheses of [feedback_scenario_timing] are met when every call
    returns at once. *)
Lemma feedback_scenario_timing_witness :
  let r := run (B := all_ok) VerifyFeedbackFeaturePy tt no_draws in
  printed "Screenshot taken successfully." (events r) = true /\
  exists tr td,
    seen_after_navigation (Css "div.bg-white.p-6.rounded-lg.shadow-md")
      (events r) = Some tr /\
    (tr <= 15000)%N /\
    seen_after_navigation (ByRole "button" "Dislike") (events r) = Some td /\
    (td <= 15000 + 3 * 5000)%N.
Proof.
  cbv zeta. split; [reflexivity|].
  exact (feedback_scenario_timing (B := all_ok) playwright_defaults
           (all_ok_honours_timeouts _) tt no_draws eq_refl).
Defined.

(** ** The file and the extent of the placeholder image *)

Definition is_file_close (a : Action) : bool :=
  match a with File_close => true | _ => false end.

Definition is_png_write (a : Action) : bool :=
  match a with Png_write _ => true | _ => false end.

Definition file_opened (tr : list Event) : bool :=
  existsb (fun e => match ev_action e with
                    | File_open _ _ => negb (raised e)
                    | _ => false
                    end) tr.

Definition writer_made (tr : list Event) : bool :=
  existsb (fun e => match ev_action e with
                    | Png_Writer _ _ _ => negb (raised e)
                    | _ => false
                    end) tr.

Lemma length_concat_rows (row : list Z) (n : nat) :
  length (concat (repeat row n)) = n * length row.
Proof.
  induction n as [|n IH]; cbn; [reflexivity|].
  rewrite length_app, IH. reflexivity.
Qed.

Section FileHandling.
Context {W : Type} {B : World W}.

(** X12.  [create_placeholder_image] never leaves the file open and never
    hides an error: when [open] raises nothing else is called; otherwise
    the file is closed exactly once, as the last call, also when the writer
    or the write raises; the rows are written only with a writer that was
    made; and the call raises exactly when one of its calls raised. *)
Theorem placeholder_file_is_closed (w : W) (rnd : nat -> nat)
    (width height : Z) (color : list Z) (filename : string) :
  let r := CreateImage.create_placeholder_image width height color filename
             (start w rnd) in
  (if file_opened (events r)
   then count is_file_close (events r) = 1 /\
        last (actions r) File_close = File_close
   else actions r = [File_open filename "wb"]) /\
  count is_png_write (events r) = (if writer_made (events r) then 1 else 0) /\
  exit_status (result r) = (if existsb raised (events r) then 1 else 0).
Proof.
  cbv zeta.
  wp_start (CreateImage.create_placeholder_image (B := B) width height color
              filename) (start w rnd).
  unfold CreateImage.create_placeholder_image. cbv zeta. wp_exec.
  all: finish_run; repeat split; reflexivity.
Qed.
End FileHandling.

(** X13.  For every width, height and colour, negative numbers included,
    the image holds [max(height,0) * max(width,0) * len(color)] values.  It
    holds no value at all exactly when the height or the width is not
    positive or the colour is empty; it then still has [max(height,0)]
    rows. *)
Theorem image_extent (width height : Z) (color : list Z) :
  length (CreateImage.image width height color) = Z.to_nat height /\
  length (concat (CreateImage.image width height color)) =
    Z.to_nat height * (Z.to_nat width * length color) /\
  (concat (CreateImage.image width height color) = [] <->
   (height <= 0)%Z \/ (width <= 0)%Z \/ color = []).
Proof.
  rewrite image_repeat, repeat_length, length_concat_rows, length_concat_repeat.
  split; [reflexivity|]. split; [reflexivity|].
  rewrite <- length_zero_iff_nil, length_concat_rows, length_concat_repeat.
  rewrite !Nat.eq_mul_0, length_zero_iff_nil.
  split; (intros [H|[H|H]]; [left|right; left|right; right]); try lia;
    exact H.
Qed.

(** ** The browsing context of verify_invalid_image.py *)

Section Context_.
Context {W : Type} {B : World W}.

(** X14.  verify_invalid_image.py closes its browsing context exactly once
    whenever the page was opened, whatever the steps did, and before the
    browser: after [context.close()] only [browser.close()] and the stop of
    Playwright can follow.  When [new_context] or [new_page] raised, the
    context is never closed. *)
Theorem context_closed_once (w : W) (rnd : nat -> nat) :
  count is_context_close (events (run VerifyInvalidImagePy w rnd)) =
    (if page_opened (events (run VerifyInvalidImagePy w rnd)) then 1 else 0) /\
  Forall (fun a => a = Browser_close \/ a = Playwright_stop)
    (map ev_action
       (after is_context_close (events (run VerifyInvalidImagePy w rnd)))).
Proof.
  by_execution; (split; [reflexivity|]); cbn.
  all: repeat (refine (Forall_cons _ _ _); [auto|]); apply Forall_nil.
Qed.
End Context_.
